(** * ate-dme.obst: the ObjectsClient wrapper over an S3-compatible client

    A shallow embedding of [client.py] and [exceptions.py].  The boto3 handle
    and the local file system are the environment: the handle is a record of
    five operations whose outcome may depend on the calls made so far, and
    [os.path.isfile] is a predicate on paths.  Every method of [ObjectsClient]
    is a computation in a state-and-exception monad whose state holds the
    client object ([self]) and the log of the calls made on the handle. *)

From Stdlib Require Import ZArith Ascii List Lia.
From Stdlib Require String.
From stdpp Require Import base option gmap strings list.

Local Open Scope Z_scope.

(** ** Python's built-ins used by the client *)

Module Py.

(** [str.rfind(c)]: the highest index holding [c], or [-1]. *)
Fixpoint rfind_from (c : ascii) (s : string) (i last : Z) : Z :=
  match s with
  | EmptyString => last
  | String a r => rfind_from c r (i + 1) (if Ascii.eqb a c then i else last)
  end.

Definition rfind (c : ascii) (s : string) : Z := rfind_from c s 0 (-1).

(** [s[i:]] for a non-negative [i]. *)
Fixpoint drop_chars (n : nat) (s : string) : string :=
  match n, s with
  | O, _ => s
  | S _, EmptyString => EmptyString
  | S m, String _ r => drop_chars m r
  end.

Definition slice_from (i : Z) (s : string) : string := drop_chars (Z.to_nat i) s.

Definition sep : ascii := "/"%char.

(** [posixpath.basename]: [i = p.rfind(sep) + 1; return p[i:]]. *)
Definition basename (p : string) : string :=
  let i := rfind sep p + 1 in slice_from i p.

(** [str.lstrip(c)] and [str.rstrip(c)] for a one-character set. *)
Fixpoint lstrip (c : ascii) (s : string) : string :=
  match s with
  | EmptyString => EmptyString
  | String a r => if Ascii.eqb a c then lstrip c r else s
  end.

Fixpoint rstrip (c : ascii) (s : string) : string :=
  match s with
  | EmptyString => EmptyString
  | String a r =>
      match rstrip c r with
      | EmptyString => if Ascii.eqb a c then EmptyString else String a EmptyString
      | r' => String a r'
      end
  end.

Definition strip (c : ascii) (s : string) : string := rstrip c (lstrip c s).

Definition dquote : ascii := "034"%char.

(** [str.startswith]. *)
Definition startswith (s p : string) : bool := String.prefix p s.

(** [o or d] for an [Optional[str]] [o] and a string [d]: [None] and the
    empty string are falsy. *)
Definition or_str (o : option string) (d : string) : string :=
  match o with
  | Some (String a r) => String a r
  | _ => d
  end.

(** [o or {}] for an [Optional[dict]]: [None] and the empty dict are falsy,
    and both give the empty dict. *)
Definition or_dict (o : option (gmap string string)) : gmap string string :=
  match o with
  | Some d => d
  | None => ∅
  end.

(** [d.get(k, dflt)]. *)
Definition get {V} (d : gmap string V) (k : string) (dflt : V) : V :=
  default dflt (d !! k).

(** [x in (a, b)] on strings. *)
Definition in_pair (x a b : string) : bool :=
  bool_decide (x = a) || bool_decide (x = b).

(** [c] does not occur in [s]. *)
Fixpoint free_of (c : ascii) (s : string) : Prop :=
  match s with
  | EmptyString => True
  | String a r => a <> c /\ free_of c r
  end.

(** A [datetime] is used only through [str()]; it is identified with the
    text that [str()] prints for it. *)
Record datetime := { dt_text : string }.
Definition str (d : datetime) : string := dt_text d.

End Py.

(** ** Exceptions ([exceptions.py] and the ones that cross the wrapper) *)

(** A botocore [ClientError]: its [response] dictionary, whose ["Error"] entry
    is itself a dictionary with the optional ["Code"] and ["Message"]. *)
Record ClientError := { response : gmap string (gmap string string) }.

(** The four classes of [exceptions.py]. *)
Inductive ErrorClass := ObjectsError | UploadError | DownloadError | ListError.

#[global] Instance ErrorClass_eq_dec : EqDecision ErrorClass.
Proof. solve_decision. Defined.

(** [issubclass c d] within the hierarchy: every class derives from
    [ObjectsError] directly. *)
Definition issubclass (c d : ErrorClass) : bool :=
  bool_decide (c = d) || bool_decide (d = ObjectsError).

(** An instance of [ObjectsError] or of one of its subclasses, as
    [ObjectsError.__init__] builds it. *)
Record ObjectsErrorObj := {
  cls : ErrorClass;
  message : string;
  code : string;
  original : option ClientError
}.

(** [ObjectsError.__str__]. *)
Definition __str__ (e : ObjectsErrorObj) : string :=
  match code e with
  | EmptyString => message e
  | c => "[" +:+ c +:+ "] " +:+ message e
  end.

Inductive exception :=
  | FileNotFoundError (msg : string)
  | KeyError (key : string)
  | BotoClientError (e : ClientError)
  | Sdk (e : ObjectsErrorObj)
  | OtherException (name : string).

Inductive result (A : Type) :=
  | Return (a : A)
  | Raise (e : exception).
Arguments Return {A} a.
Arguments Raise {A} e.

(** ** Data model ([client.py]) *)

Definition DEFAULT_ENDPOINT : string := "https://s3.nevaobjects.id".

Record ObjectInfo := {
  key : string;
  size : Z;
  last_modified : string;
  etag : string
}.

Record ObjectsConfig := {
  access_key : string;
  secret_key : string;
  bucket : string;
  endpoint : string;
  default_expiry : Z;
  extra_boto_config : gmap string string
}.

(** The dataclass defaults: [endpoint], [default_expiry], [extra_boto_config]. *)
Definition mkObjectsConfig (ak sk b : string) : ObjectsConfig :=
  {| access_key := ak; secret_key := sk; bucket := b;
     endpoint := DEFAULT_ENDPOINT; default_expiry := 86400;
     extra_boto_config := ∅ |}.

(** ** The collaborator *)

(** One entry of ["Contents"] in a [list_objects_v2] response: a dictionary in
    which each of the four entries the wrapper reads may be absent. *)
Record S3Object := {
  Key : option string;
  Size : option Z;
  LastModified : option Py.datetime;
  ETag : option string
}.

(** A [list_objects_v2] response: the wrapper reads ["Contents"] only. *)
Record ListObjectsV2Output := { Contents : option (list S3Object) }.

(** The calls the wrapper makes on the handle, with their keyword arguments. *)
Inductive Call :=
  | UploadFile (Filename Bucket Key_ : string) (ExtraArgs : gmap string string)
  | ListObjectsV2 (Bucket Prefix : string) (MaxKeys : Z)
  | GeneratePresignedUrl (ClientMethod Bucket Key_ : string) (ExpiresIn : Z)
  | DeleteObject (Bucket Key_ : string)
  | HeadObject (Bucket Key_ : string).

Definition call_bucket (c : Call) : string :=
  match c with
  | UploadFile _ b _ _ => b
  | ListObjectsV2 b _ _ => b
  | GeneratePresignedUrl _ b _ _ => b
  | DeleteObject b _ => b
  | HeadObject b _ => b
  end.

(** The boto3 handle.  Each operation sees the calls made before it, so a
    handle may stand for a store that uploads and deletions change. *)
Record S3Client := {
  upload_file : list Call -> string -> string -> string -> gmap string string -> result unit;
  list_objects_v2 : list Call -> string -> string -> Z -> result ListObjectsV2Output;
  generate_presigned_url : list Call -> string -> string -> string -> Z -> result string;
  delete_object : list Call -> string -> string -> result unit;
  head_object : list Call -> string -> string -> result unit
}.

(** ** The client object and the monad of its methods *)

Record ObjectsClient := { config : ObjectsConfig; _s3 : S3Client }.

Record state := { self : ObjectsClient; calls : list Call }.

Definition M (A : Type) : Type := state -> result A * state.

Definition ret {A} (a : A) : M A := fun st => (Return a, st).

Definition raise {A} (e : exception) : M A := fun st => (Raise e, st).

Definition bind {A B} (m : M A) (k : A -> M B) : M B :=
  fun st =>
    match m st with
    | (Return a, st') => k a st'
    | (Raise e, st') => (Raise e, st')
    end.

Notation "x <- m ;; k" := (bind m (fun x => k))
  (at level 100, m at next level, right associativity).
Notation "m ;;; k" := (bind m (fun _ => k))
  (at level 100, right associativity).

(** [try: body except ClientError as exc: handler exc]. *)
Definition try_except_ClientError {A} (body : M A) (handler : ClientError -> M A) : M A :=
  fun st =>
    match body st with
    | (Raise (BotoClientError exc), st') => handler exc st'
    | other => other
    end.

(** Reading [self.config]. *)
Definition self_config : M ObjectsConfig := fun st => (Return (config (self st)), st).

(** A pure computation that may raise. *)
Definition lift {A} (r : result A) : M A := fun st => (r, st).

Definition log (c : Call) (st : state) : state :=
  {| self := self st; calls := calls st ++ [c] |}.

(** The five calls on [self._s3]. *)
Definition s3_upload_file (Filename Bucket Key_ : string) (ExtraArgs : gmap string string) : M unit :=
  fun st => (upload_file (_s3 (self st)) (calls st) Filename Bucket Key_ ExtraArgs,
             log (UploadFile Filename Bucket Key_ ExtraArgs) st).

Definition s3_list_objects_v2 (Bucket Prefix : string) (MaxKeys : Z) : M ListObjectsV2Output :=
  fun st => (list_objects_v2 (_s3 (self st)) (calls st) Bucket Prefix MaxKeys,
             log (ListObjectsV2 Bucket Prefix MaxKeys) st).

Definition s3_generate_presigned_url (ClientMethod Bucket Key_ : string) (ExpiresIn : Z) : M string :=
  fun st => (generate_presigned_url (_s3 (self st)) (calls st) ClientMethod Bucket Key_ ExpiresIn,
             log (GeneratePresignedUrl ClientMethod Bucket Key_ ExpiresIn) st).

Definition s3_delete_object (Bucket Key_ : string) : M unit :=
  fun st => (delete_object (_s3 (self st)) (calls st) Bucket Key_,
             log (DeleteObject Bucket Key_) st).

Definition s3_head_object (Bucket Key_ : string) : M unit :=
  fun st => (head_object (_s3 (self st)) (calls st) Bucket Key_,
             log (HeadObject Bucket Key_) st).

(** ** The methods of [ObjectsClient] *)

(** [d[k]] on a dictionary entry that may be absent. *)
Definition getitem {A} (o : option A) (k : string) : result A :=
  match o with
  | Some a => Return a
  | None => Raise (KeyError k)
  end.

(** [[f(x) for x in l]], where [f] may raise. *)
Fixpoint comprehension {A B} (f : A -> result B) (l : list A) : result (list B) :=
  match l with
  | [] => Return []
  | x :: r =>
      match f x with
      | Raise e => Raise e
      | Return y =>
          match comprehension f r with
          | Raise e => Raise e
          | Return ys => Return (y :: ys)
          end
      end
  end.

(** [ObjectsClient._parse_client_error]. *)
Definition _parse_client_error (error : ClientError) : string * string :=
  let resp := Py.get (response error) "Error" ∅ in
  (Py.get resp "Code" "Unknown", Py.get resp "Message" "(no message)").

(** [raise Cls(text, code=code, original=exc) from exc], after
    [code, msg = self._parse_client_error(exc)]; [text] receives [msg]. *)
Definition translate {A} (c : ErrorClass) (text : string -> string) (exc : ClientError) : M A :=
  let '(code, msg) := _parse_client_error exc in
  raise (Sdk {| cls := c; message := text msg; code := code; original := Some exc |}).

(** The body of the list comprehension of [ObjectsClient.list]. *)
Definition object_info (obj : S3Object) : result ObjectInfo :=
  match getitem (Key obj) "Key" with
  | Raise e => Raise e
  | Return k =>
      match getitem (Size obj) "Size" with
      | Raise e => Raise e
      | Return s =>
          match getitem (LastModified obj) "LastModified" with
          | Raise e => Raise e
          | Return lm =>
              Return {| key := k; size := s; last_modified := Py.str lm;
                        etag := Py.strip Py.dquote (default "" (ETag obj)) |}
          end
      end
  end.

Section Methods.

(** [os.path.isfile] on the machine the client runs on. *)
Variable isfile : string -> bool.

Definition upload (local_path : string) (object_key : option string)
    (extra_args : option (gmap string string)) : M string :=
  if negb (isfile local_path) then
    raise (FileNotFoundError ("File not found: " +:+ local_path))
  else
    let key := Py.or_str object_key (Py.basename local_path) in
    (try_except_ClientError
       (cfg <- self_config ;;
        s3_upload_file local_path (bucket cfg) key (Py.or_dict extra_args))
       (translate UploadError
          (fun msg => "Upload failed for '" +:+ local_path +:+ "': " +:+ msg))) ;;;
    ret key.

(** [ObjectsClient.list] ([list] is Rocq's type of lists). *)
Definition list_ (prefix : string) (max_keys : Z) : M (list ObjectInfo) :=
  response <- try_except_ClientError
                (cfg <- self_config ;;
                 s3_list_objects_v2 (bucket cfg) prefix max_keys)
                (translate ListError (fun msg => "Failed to list objects: " +:+ msg)) ;;
  let contents := default [] (Contents response) in
  lift (comprehension object_info contents).

(** The default of [list] that [list_keys] relies on: [max_keys=1000]. *)
Definition list_default_max_keys : Z := 1000.

Definition list_keys (prefix : string) : M (list string) :=
  objs <- list_ prefix list_default_max_keys ;;
  ret (map key objs).

Definition get_download_url (object_key : string) (expires_in : option Z) : M string :=
  cfg <- self_config ;;
  let expiry := match expires_in with Some e => e | None => default_expiry cfg end in
  url <- try_except_ClientError
           (cfg <- self_config ;;
            s3_generate_presigned_url "get_object" (bucket cfg) object_key expiry)
           (translate DownloadError
              (fun msg => "Failed to generate URL for '" +:+ object_key +:+ "': " +:+ msg)) ;;
  ret url.

Definition delete (object_key : string) : M unit :=
  try_except_ClientError
    (cfg <- self_config ;;
     s3_delete_object (bucket cfg) object_key)
    (translate ObjectsError
       (fun msg => "Failed to delete '" +:+ object_key +:+ "': " +:+ msg)).

Definition object_exists (object_key : string) : M bool :=
  try_except_ClientError
    (cfg <- self_config ;;
     s3_head_object (bucket cfg) object_key ;;;
     ret true)
    (fun exc =>
       err <- lift (getitem (response exc !! "Error") "Error") ;;
       c <- lift (getitem (err !! "Code") "Code") ;;
       if Py.in_pair c "404" "NoSuchKey" then ret false
       else translate ObjectsError
              (fun msg => "Failed to check existence of '" +:+ object_key +:+ "': " +:+ msg)
              exc).

End Methods.

(** Running a method on a fresh log. *)
Definition start (c : ObjectsClient) : state := {| self := c; calls := [] |}.

(** The public operations with their arguments. *)
Inductive Operation :=
  | Upload (local_path : string) (object_key : option string)
      (extra_args : option (gmap string string))
  | List_ (prefix : string) (max_keys : Z)
  | ListKeys (prefix : string)
  | GetDownloadUrl (object_key : string) (expires_in : option Z)
  | Delete (object_key : string)
  | ObjectExists (object_key : string).

(** An outcome with the returned value left out. *)
Definition forget {A} (r : result A) : result unit :=
  match r with
  | Return _ => Return tt
  | Raise e => Raise e
  end.

Definition void {A} (m : M A) : M unit :=
  fun st => (forget (fst (m st)), snd (m st)).

(** Running an operation: whether it returned or what it raised, and the
    state it leaves. *)
Definition exec (isfile : string -> bool) (op : Operation) : M unit :=
  match op with
  | Upload p k x => void (upload isfile p k x)
  | List_ p m => void (list_ p m)
  | ListKeys p => void (list_keys p)
  | GetDownloadUrl k e => void (get_download_url k e)
  | Delete k => void (delete k)
  | ObjectExists k => void (object_exists k)
  end.

(** What a handle answers to a call, with the value of the answer left out. *)
Definition answer (h : S3Client) (past : list Call) (c : Call) : result unit :=
  match c with
  | UploadFile f b k x => upload_file h past f b k x
  | ListObjectsV2 b p m => forget (list_objects_v2 h past b p m)
  | GeneratePresignedUrl cm b k x => forget (generate_presigned_url h past cm b k x)
  | DeleteObject b k => delete_object h past b k
  | HeadObject b k => head_object h past b k
  end.

(** The code of a [ClientError], read as [exc.response["Error"]["Code"]]. *)
Definition error_code (exc : ClientError) : option string :=
  err ← response exc !! "Error"; err !! "Code".

(** The ["Error"] entry of a [ClientError], read as
    [exc.response.get("Error", {})]. *)
Definition error_entry (exc : ClientError) : gmap string string :=
  Py.get (response exc) "Error" ∅.

(** The fixed part of the message of each translated error. *)
Definition message_text (op : Operation) (msg : string) : string :=
  match op with
  | Upload p _ _ => "Upload failed for '" +:+ p +:+ "': " +:+ msg
  | List_ _ _ | ListKeys _ => "Failed to list objects: " +:+ msg
  | GetDownloadUrl k _ => "Failed to generate URL for '" +:+ k +:+ "': " +:+ msg
  | Delete k => "Failed to delete '" +:+ k +:+ "': " +:+ msg
  | ObjectExists k => "Failed to check existence of '" +:+ k +:+ "': " +:+ msg
  end.

(** The class of the error each operation raises for a [ClientError]. *)
Definition error_class (op : Operation) : ErrorClass :=
  match op with
  | Upload _ _ _ => UploadError
  | List_ _ _ | ListKeys _ => ListError
  | GetDownloadUrl _ _ => DownloadError
  | Delete _ | ObjectExists _ => ObjectsError
  end.

(** The typed error built from a [ClientError] for an operation. *)
Definition translated (op : Operation) (exc : ClientError) : ObjectsErrorObj :=
  {| cls := error_class op;
     message := message_text op (Py.get (error_entry exc) "Message" "(no message)");
     code := Py.get (error_entry exc) "Code" "Unknown";
     original := Some exc |}.

(** The call an operation makes on the handle, if it makes one. *)
Definition request (isfile : string -> bool) (cfg : ObjectsConfig) (op : Operation) : option Call :=
  match op with
  | Upload p k x =>
      if isfile p
      then Some (UploadFile p (bucket cfg) (Py.or_str k (Py.basename p)) (Py.or_dict x))
      else None
  | List_ p m => Some (ListObjectsV2 (bucket cfg) p m)
  | ListKeys p => Some (ListObjectsV2 (bucket cfg) p list_default_max_keys)
  | GetDownloadUrl k e =>
      Some (GeneratePresignedUrl "get_object" (bucket cfg) k (default (default_expiry cfg) e))
  | Delete k => Some (DeleteObject (bucket cfg) k)
  | ObjectExists k => Some (HeadObject (bucket cfg) k)
  end.

(** A handle honours a listing when a response that succeeds holds at most
    [MaxKeys] entries, each with a key that starts with [Prefix]. *)
Definition honours_listing (h : S3Client) : Prop :=
  forall past b p m out,
    list_objects_v2 h past b p m = Return out ->
    Z.of_nat (length (default [] (Contents out))) <= m /\
    Forall (fun o => forall k, Key o = Some k -> Py.startswith k p = true)
      (default [] (Contents out)).

(** [k in s] on strings: [k] occurs in [s]. *)
Definition occurs_in (k s : string) : Prop := exists pre post, s = pre +:+ k +:+ post.

(** ** Collaborators to run the client against *)

Module Store.

(** A [ClientError] whose response carries a code and a message. *)
Definition client_error (c m : string) : ClientError :=
  {| response := {[ "Error" := <[ "Code" := c ]> {[ "Message" := m ]} ]} |}.

(** A [ClientError] whose response has an empty ["Error"] entry. *)
Definition bare_error : ClientError := {| response := {[ "Error" := ∅ ]} |}.

(** The keys a bucket holds after a call, and after a run of calls. *)
Definition apply_call (keys : list string) (c : Call) : list string :=
  match c with
  | UploadFile _ _ k _ => if bool_decide (k ∈ keys) then keys else keys ++ [k]
  | DeleteObject _ k => filter (fun k' => k' <> k) keys
  | _ => keys
  end.

Definition replay (initial : list string) (past : list Call) : list string :=
  fold_left apply_call past initial.

Definition entry (k : string) : S3Object :=
  {| Key := Some k; Size := Some (Z.of_nat (String.length k));
     LastModified := Some {| Py.dt_text := "2024-05-01 10:00:00+00:00" |};
     ETag := Some (String Py.dquote ("9b2cf535f27731c9" +:+ String Py.dquote "")) |}.

(** A bucket in memory: uploads add a key, deletions remove it, a listing
    filters by prefix and keeps the first [MaxKeys] keys, and leaves out
    ["Contents"] when nothing matches. *)
Definition memory (initial : list string) : S3Client :=
  {| upload_file past f b k x := Return tt;
     list_objects_v2 past b p m :=
       if m <? 0 then Raise (BotoClientError (client_error "InvalidArgument" "MaxKeys"))
       else
         match take (Z.to_nat m)
                 (filter (fun k => Is_true (Py.startswith k p)) (replay initial past)) with
         | [] => Return {| Contents := None |}
         | found => Return {| Contents := Some (map entry found) |}
         end;
     generate_presigned_url past cm b k e :=
       Return (DEFAULT_ENDPOINT +:+ "/" +:+ b +:+ "/" +:+ k);
     delete_object past b k := Return tt;
     head_object past b k :=
       if bool_decide (k ∈ replay initial past) then Return tt
       else Raise (BotoClientError (client_error "404" "Not Found")) |}.

(** A handle every call on which fails with the same [ClientError]. *)
Definition failing (e : ClientError) : S3Client :=
  {| upload_file past f b k x := Raise (BotoClientError e);
     list_objects_v2 past b p m := Raise (BotoClientError e);
     generate_presigned_url past cm b k x := Raise (BotoClientError e);
     delete_object past b k := Raise (BotoClientError e);
     head_object past b k := Raise (BotoClientError e) |}.

(** A handle that ignores [Prefix] and [MaxKeys]. *)
Definition unfiltered (keys : list string) : S3Client :=
  {| upload_file past f b k x := Return tt;
     list_objects_v2 past b p m := Return {| Contents := Some (map entry keys) |};
     generate_presigned_url past cm b k e := Return DEFAULT_ENDPOINT;
     delete_object past b k := Return tt;
     head_object past b k := Return tt |}.

(** The client of the scenario: bucket ["photos"], over an empty store. *)
Definition photos : ObjectsClient :=
  {| config := mkObjectsConfig "AK" "SK" "photos"; _s3 := memory [] |}.

(** The local files of the scenario. *)
Definition files (p : string) : bool := bool_decide (p = "./a.jpg").

End Store.

(** ** Construction and runs of operations *)

(** A keyword argument of [botocore.client.Config]: a string, or a dictionary
    such as [s3={"addressing_style": "path"}]. *)
Inductive OptVal :=
  | OptStr (s : string)
  | OptDict (d : gmap string string).

(** A call that writes out keyword arguments and unpacks a dictionary after
    them: a name given twice is a [TypeError], raised before the callee is
    entered. *)
Definition call_kwargs (explicit : list (string * OptVal)) (extra : gmap string OptVal)
    : result (gmap string OptVal) :=
  if existsb (fun kv => bool_decide (is_Some (extra !! kv.1))) explicit
  then Raise (OtherException "TypeError")
  else Return (list_to_map explicit ∪ extra).

(** The keyword arguments [_build_client] writes out for [Config]. *)
Definition fixed_options : list (string * OptVal) :=
  [ ("signature_version", OptStr "s3v4");
    ("s3", OptDict {[ "addressing_style" := "path" ]});
    ("request_checksum_calculation", OptStr "when_required");
    ("response_checksum_validation", OptStr "when_required") ].

(** The two entry points of boto3 that [_build_client] uses: [Config], called
    with keyword arguments, and [boto3.client(service, endpoint_url,
    aws_access_key_id, aws_secret_access_key, config)]. *)
Record Boto3 (BotoConfig : Type) := {
  Config : gmap string OptVal -> result BotoConfig;
  client : string -> string -> string -> string -> BotoConfig -> result S3Client
}.
Arguments Config {BotoConfig} _ _.
Arguments client {BotoConfig} _ _ _ _ _ _.

(** [ObjectsClient._build_client]. *)
Definition _build_client {BotoConfig} (boto3 : Boto3 BotoConfig) (cfg : ObjectsConfig)
    : result S3Client :=
  match call_kwargs fixed_options (OptStr <$> extra_boto_config cfg) with
  | Raise e => Raise e
  | Return kwargs =>
      match Config boto3 kwargs with
      | Raise e => Raise e
      | Return boto_config =>
          client boto3 "s3" (endpoint cfg) (access_key cfg) (secret_key cfg) boto_config
      end
  end.

(** [ObjectsClient.__init__]. *)
Definition __init__ {BotoConfig} (boto3 : Boto3 BotoConfig) (cfg : ObjectsConfig)
    : result ObjectsClient :=
  match _build_client boto3 cfg with
  | Raise e => Raise e
  | Return h => Return {| config := cfg; _s3 := h |}
  end.

(** Running operations one after the other, the caller going on after an
    exception: the state that is left. *)
Fixpoint run_all (isfile : string -> bool) (ops : list Operation) (st : state) : state :=
  match ops with
  | [] => st
  | op :: rest => run_all isfile rest (snd (exec isfile op st))
  end.

(** ** Words for stating what [strip] does *)

Definition first_char (s : string) : option ascii :=
  match s with
  | EmptyString => None
  | String a _ => Some a
  end.

Fixpoint last_char (s : string) : option ascii :=
  match s with
  | EmptyString => None
  | String a EmptyString => Some a
  | String _ r => last_char r
  end.

(** The string of [n] characters [c]. *)
Fixpoint repeat_char (n : nat) (c : ascii) : string :=
  match n with
  | O => EmptyString
  | S m => String c (repeat_char m c)
  end.

(** An entry of ["Contents"] has the three entries [list] indexes. *)
Definition well_formed (obj : S3Object) : Prop :=
  is_Some (Key obj) /\ is_Some (Size obj) /\ is_Some (LastModified obj).

(** ** More collaborators to run the client against *)

Module Mock.

(** A handle every call on which raises the same exception. *)
Definition raising (e : exception) : S3Client :=
  {| upload_file past f b k x := Raise e;
     list_objects_v2 past b p m := Raise e;
     generate_presigned_url past cm b k x := Raise e;
     delete_object past b k := Raise e;
     head_object past b k := Raise e |}.

(** A handle whose listing is a fixed response. *)
Definition listing (out : ListObjectsV2Output) : S3Client :=
  {| upload_file past f b k x := Return tt;
     list_objects_v2 past b p m := Return out;
     generate_presigned_url past cm b k e := Return DEFAULT_ENDPOINT;
     delete_object past b k := Return tt;
     head_object past b k := Return tt |}.

(** An entry of a listing with no ["Size"] and no ["ETag"]. *)
Definition sizeless (k : string) : S3Object :=
  {| Key := Some k; Size := None;
     LastModified := Some {| Py.dt_text := "2024-05-01 10:00:00+00:00" |};
     ETag := None |}.

(** A boto3 whose [Config] keeps the keyword arguments it is given and whose
    [client] is an empty bucket in memory. *)
Definition boto3 : Boto3 (gmap string OptVal) :=
  {| Config kwargs := Return kwargs;
     client service endpoint_url ak sk boto_config := Return (Store.memory []) |}.

(** A client over a given handle, with bucket ["photos"]. *)
Definition over (h : S3Client) : ObjectsClient :=
  {| config := mkObjectsConfig "AK" "SK" "photos"; _s3 := h |}.

End Mock.

(** * Properties *)

(** ** [basename] and [strip] *)

Section PyFacts.

Lemma rfind_from_free c s i last :
  Py.free_of c s -> Py.rfind_from c s i last = last.
Proof.
  revert i last; induction s as [|a r IH]; intros i last Hf; simpl in *; [done|].
  destruct Hf as [Hne Hf]. rewrite IH by done.
  destruct (Ascii.eqb_spec a c); congruence.
Qed.

Lemma rfind_from_last c d f i last :
  Py.free_of c f ->
  Py.rfind_from c (d +:+ String c f) i last = i + Z.of_nat (String.length d).
Proof.
  revert i last; induction d as [|a r IH]; intros i last Hf; simpl.
  - rewrite Ascii.eqb_refl, rfind_from_free by done. lia.
  - rewrite IH by done. lia.
Qed.

Lemma drop_chars_past d c f :
  Py.drop_chars (S (String.length d)) (d +:+ String c f) = f.
Proof. induction d as [|a r IH]; simpl; [by destruct f|done]. Qed.

(** A path with no separator is its own base name. *)
Lemma basename_plain f : Py.free_of Py.sep f -> Py.basename f = f.
Proof.
  intros Hf. unfold Py.basename, Py.rfind. rewrite rfind_from_free by done.
  by destruct f.
Qed.

(** The base name of [d/f] is [f] when [f] holds no separator. *)
Lemma basename_join d f :
  Py.free_of Py.sep f -> Py.basename (d +:+ String Py.sep f) = f.
Proof.
  intros Hf. unfold Py.basename, Py.rfind, Py.slice_from.
  rewrite rfind_from_last by done.
  replace (Z.to_nat (0 + Z.of_nat (String.length d) + 1)) with (S (String.length d)) by lia.
  apply drop_chars_past.
Qed.

(** Every path splits at its last separator, if it has one. *)
Lemma split_at_last_sep c p :
  Py.free_of c p \/ exists d f, p = d +:+ String c f /\ Py.free_of c f.
Proof.
  induction p as [|a r IH]; [by left|].
  destruct IH as [Hfree|(d & f & -> & Hf)].
  - destruct (decide (a = c)) as [->|Hne].
    + right. by exists "", r.
    + by left.
  - right. by exists (String a d), f.
Qed.

(** [basename p] is the part of [p] after its last separator: it holds no
    separator, and what stands before it in [p] is empty or ends with one. *)
Lemma basename_spec p :
  Py.free_of Py.sep (Py.basename p) /\
  (p = Py.basename p \/ exists d, p = d +:+ String Py.sep (Py.basename p)).
Proof.
  destruct (split_at_last_sep Py.sep p) as [Hfree|(d & f & -> & Hf)].
  - rewrite basename_plain by done. split; [done|by left].
  - rewrite basename_join by done. split; [done|]. right. by exists d.
Qed.

Lemma or_str_None d : Py.or_str None d = d.
Proof. done. Qed.

Lemma or_str_empty d : Py.or_str (Some "") d = d.
Proof. done. Qed.

Lemma or_str_given k d : k <> "" -> Py.or_str (Some k) d = k.
Proof. by destruct k. Qed.

Lemma in_pair_spec x a b : Py.in_pair x a b = true <-> x = a \/ x = b.
Proof.
  unfold Py.in_pair. rewrite orb_true_iff, !bool_decide_eq_true. done.
Qed.

End PyFacts.

(** ** The error classes *)

Lemma issubclass_base c : issubclass c ObjectsError = true.
Proof. by destruct c. Qed.

Lemma issubclass_of_base c : issubclass ObjectsError c = true -> c = ObjectsError.
Proof. by destruct c. Qed.

Example str_with_code :
  __str__ {| cls := ObjectsError; message := "Failed to delete 'a.jpg': Access Denied";
             code := "AccessDenied"; original := None |}
    = "[AccessDenied] Failed to delete 'a.jpg': Access Denied".
Proof. reflexivity. Qed.

Example str_without_code :
  __str__ {| cls := UploadError; message := "Upload failed"; code := ""; original := None |}
    = "Upload failed".
Proof. reflexivity. Qed.

(** ** The methods, one collaborator answer at a time *)

Ltac unfold_methods :=
  unfold exec, void, list_keys, upload, list_, get_download_url, delete, object_exists,
    translate, try_except_ClientError, bind, self_config, ret, raise, lift,
    s3_upload_file, s3_list_objects_v2, s3_generate_presigned_url, s3_delete_object,
    s3_head_object, log in *.

Ltac run := unfold_methods; simpl in *.

(** Case analysis on what the handle answered. *)
Ltac answer_cases :=
  repeat match goal with
         | |- context [match ?r with Return _ => _ | Raise _ => _ end] =>
             let E := fresh "E" in destruct r as [?|[]] eqn:E; simpl in *
         | |- context [let '(_, _) := ?p in _] =>
             let E := fresh "E" in destruct p eqn:E; simpl in *
         end.

Section MethodFacts.

Variable isfile : string -> bool.

(** Unfolding equations of [upload]. *)
Lemma upload_missing local_path object_key extra_args st :
  isfile local_path = false ->
  upload isfile local_path object_key extra_args st =
    (Raise (FileNotFoundError ("File not found: " +:+ local_path)), st).
Proof. intros H. unfold upload. by rewrite H. Qed.

Lemma upload_calls local_path object_key extra_args st :
  isfile local_path = true ->
  calls (snd (upload isfile local_path object_key extra_args st)) =
    calls st ++ [UploadFile local_path (bucket (config (self st)))
                   (Py.or_str object_key (Py.basename local_path))
                   (Py.or_dict extra_args)].
Proof. intros H. run. rewrite H. simpl. by answer_cases. Qed.

Lemma upload_accepted local_path object_key extra_args st :
  isfile local_path = true ->
  upload_file (_s3 (self st)) (calls st) local_path (bucket (config (self st)))
    (Py.or_str object_key (Py.basename local_path)) (Py.or_dict extra_args) = Return tt ->
  fst (upload isfile local_path object_key extra_args st) =
    Return (Py.or_str object_key (Py.basename local_path)).
Proof. intros H Hok. run. rewrite H. simpl. by rewrite Hok. Qed.

Lemma upload_returned local_path object_key extra_args st k :
  fst (upload isfile local_path object_key extra_args st) = Return k ->
  k = Py.or_str object_key (Py.basename local_path).
Proof.
  run. destruct (isfile local_path); simpl; [|done].
  answer_cases; congruence.
Qed.

(** Unfolding equations of [list]. *)
Lemma list_calls prefix max_keys st :
  calls (snd (list_ prefix max_keys st)) =
    calls st ++ [ListObjectsV2 (bucket (config (self st))) prefix max_keys].
Proof. run. by answer_cases. Qed.

Lemma list_answered prefix max_keys st out :
  list_objects_v2 (_s3 (self st)) (calls st) (bucket (config (self st))) prefix max_keys
    = Return out ->
  fst (list_ prefix max_keys st) = comprehension object_info (default [] (Contents out)).
Proof. intros H. run. by rewrite H. Qed.

Lemma list_returned prefix max_keys st objs :
  fst (list_ prefix max_keys st) = Return objs ->
  exists out,
    list_objects_v2 (_s3 (self st)) (calls st) (bucket (config (self st))) prefix max_keys
      = Return out /\
    comprehension object_info (default [] (Contents out)) = Return objs.
Proof.
  run. destruct (list_objects_v2 _ _ _ _ _) as [out|[]] eqn:E; simpl; try done.
  intros H. by exists out.
Qed.

Lemma comprehension_Forall2 {A B} (f : A -> result B) l ys :
  comprehension f l = Return ys -> Forall2 (fun x y => f x = Return y) l ys.
Proof.
  revert ys; induction l as [|x r IH]; intros ys; simpl.
  - intros [= <-]. constructor.
  - destruct (f x) as [y|] eqn:Ex; [|done].
    destruct (comprehension f r) as [ys'|]; [|done].
    intros [= <-]. constructor; auto.
Qed.

Lemma object_info_key obj info :
  object_info obj = Return info -> Key obj = Some (key info).
Proof.
  unfold object_info, getitem.
  destruct (Key obj), (Size obj), (LastModified obj); try done.
  by intros [= <-].
Qed.

Lemma list_keys_unfold prefix st :
  list_keys prefix st =
    (match fst (list_ prefix list_default_max_keys st) with
     | Return objs => Return (map key objs)
     | Raise e => Raise e
     end,
     snd (list_ prefix list_default_max_keys st)).
Proof.
  unfold list_keys, bind, ret.
  by destruct (list_ prefix list_default_max_keys st) as [[objs|e] st'].
Qed.

(** Unfolding equations of [get_download_url], [delete] and [object_exists]. *)
Lemma get_download_url_calls object_key expires_in st :
  calls (snd (get_download_url object_key expires_in st)) =
    calls st ++ [GeneratePresignedUrl "get_object" (bucket (config (self st))) object_key
                   (default (default_expiry (config (self st))) expires_in)].
Proof. run. destruct expires_in; simpl; by answer_cases. Qed.

Lemma get_download_url_answer object_key expires_in st url :
  generate_presigned_url (_s3 (self st)) (calls st) "get_object"
    (bucket (config (self st))) object_key
    (default (default_expiry (config (self st))) expires_in) = Return url ->
  fst (get_download_url object_key expires_in st) = Return url.
Proof. intros H. run. destruct expires_in; simpl in *; by rewrite H. Qed.

Lemma delete_failed object_key st exc :
  delete_object (_s3 (self st)) (calls st) (bucket (config (self st))) object_key
    = Raise (BotoClientError exc) ->
  fst (delete object_key st) = Raise (Sdk (translated (Delete object_key) exc)).
Proof. intros H. run. by rewrite H. Qed.

Lemma object_exists_answer object_key st :
  fst (object_exists object_key st) =
    match head_object (_s3 (self st)) (calls st) (bucket (config (self st))) object_key with
    | Return _ => Return true
    | Raise (BotoClientError exc) =>
        match response exc !! "Error" with
        | None => Raise (KeyError "Error")
        | Some err =>
            match err !! "Code" with
            | None => Raise (KeyError "Code")
            | Some c =>
                if Py.in_pair c "404" "NoSuchKey" then Return false
                else Raise (Sdk (translated (ObjectExists object_key) exc))
            end
        end
    | Raise e => Raise e
    end.
Proof.
  run. destruct (head_object _ _ _ _) as [[]|[]]; simpl; try done.
  destruct (response e !! "Error") as [err|]; simpl; [|done].
  destruct (err !! "Code") as [c|]; simpl; [|done].
  by destruct (Py.in_pair c "404" "NoSuchKey").
Qed.

(** ** Every operation at once *)

Lemma exec_self op st : self (snd (exec isfile op st)) = self st.
Proof. destruct op; run; by repeat (case_match; simplify_eq/=). Qed.

Lemma exec_calls op st :
  calls (snd (exec isfile op st)) =
    calls st ++ option_list (request isfile (config (self st)) op).
Proof.
  destruct op; run; repeat (case_match; simplify_eq/=); try done.
  by rewrite app_nil_r.
Qed.

Lemma request_bucket cfg op c :
  request isfile cfg op = Some c -> call_bucket c = bucket cfg.
Proof.
  destruct op; simpl; try (by intros [= <-]).
  destruct (isfile local_path); [by intros [= <-]|done].
Qed.

(** A [ClientError] from the handle becomes the typed error of the operation;
    [object_exists] alone looks at the code first. *)
Lemma exec_translates op st c exc :
  request isfile (config (self st)) op = Some c ->
  answer (_s3 (self st)) (calls st) c = Raise (BotoClientError exc) ->
  (forall k, op <> ObjectExists k) ->
  fst (exec isfile op st) = Raise (Sdk (translated op exc)).
Proof.
  intros Hreq Hans Hop.
  destruct op; simpl in Hreq; try (destruct (isfile local_path) eqn:Hf; [|done]);
    injection Hreq as <-; simpl in Hans.
  - run. rewrite Hf. simpl. by rewrite Hans.
  - run. by destruct (list_objects_v2 _ _ _ _ _) as [|[]]; simplify_eq/=.
  - run. by destruct (list_objects_v2 _ _ _ _ _) as [|[]]; simplify_eq/=.
  - run. destruct expires_in; simpl in *;
      by destruct (generate_presigned_url _ _ _ _ _ _) as [|[]]; simplify_eq/=.
  - run. by rewrite Hans.
  - by destruct (Hop object_key).
Qed.

Lemma parse_client_error_unfold exc :
  _parse_client_error exc =
    (Py.get (error_entry exc) "Code" "Unknown",
     Py.get (error_entry exc) "Message" "(no message)").
Proof. done. Qed.

Lemma error_code_entry exc c :
  error_code exc = Some c -> error_entry exc !! "Code" = Some c.
Proof.
  unfold error_code, error_entry, Py.get.
  by destruct (response exc !! "Error") as [err|]; simpl.
Qed.

Lemma translated_code op exc c :
  error_entry exc !! "Code" = Some c -> code (translated op exc) = c.
Proof.
  intros H.
  change (code (translated op exc)) with (default "Unknown" (error_entry exc !! "Code")).
  by rewrite H.
Qed.

Lemma translated_code_missing op exc :
  error_entry exc !! "Code" = None -> code (translated op exc) = "Unknown".
Proof.
  intros H.
  change (code (translated op exc)) with (default "Unknown" (error_entry exc !! "Code")).
  by rewrite H.
Qed.

Lemma translated_message_missing op exc :
  error_entry exc !! "Message" = None ->
  message (translated op exc) = message_text op "(no message)".
Proof.
  intros H.
  change (message (translated op exc))
    with (message_text op (default "(no message)" (error_entry exc !! "Message"))).
  by rewrite H.
Qed.

(** A failure of the handle that an operation turns into a normal return is a
    not-found answer to the probe of [object_exists]. *)
Lemma exec_absorbs op st c e :
  request isfile (config (self st)) op = Some c ->
  answer (_s3 (self st)) (calls st) c = Raise e ->
  fst (exec isfile op st) = Return tt ->
  exists k exc code,
    op = ObjectExists k /\ e = BotoClientError exc /\
    error_code exc = Some code /\ (code = "404" \/ code = "NoSuchKey").
Proof.
  intros Hreq Hans Hret.
  destruct op; simpl in Hreq; try (destruct (isfile local_path) eqn:Hf; [|done]);
    injection Hreq as <-; simpl in Hans.
  - run. rewrite Hf in Hret. simpl in Hret. rewrite Hans in Hret. by destruct e; simplify_eq/=.
  - run. destruct (list_objects_v2 _ _ _ _ _) as [|e']; [done|].
    simpl in Hans. injection Hans as ->. by destruct e; simplify_eq/=.
  - run. destruct (list_objects_v2 _ _ _ _ _) as [|e']; [done|].
    simpl in Hans. injection Hans as ->. by destruct e; simplify_eq/=.
  - run. destruct expires_in; simpl in *;
      (destruct (generate_presigned_url _ _ _ _ _ _) as [|e']; [done|]);
      simpl in Hans; injection Hans as ->; by destruct e; simplify_eq/=.
  - run. rewrite Hans in Hret. by destruct e; simplify_eq/=.
  - simpl in Hret. unfold void in Hret. simpl in Hret.
    rewrite object_exists_answer, Hans in Hret.
    destruct e as [| |exc| |]; try done.
    destruct (response exc !! "Error") as [err|] eqn:Herr; simpl in *; [|done].
    destruct (err !! "Code") as [code|] eqn:Hcode; simpl in *; [|done].
    destruct (Py.in_pair code "404" "NoSuchKey") eqn:Hin; [|done].
    apply in_pair_spec in Hin.
    exists object_key, exc, code. unfold error_code. by rewrite Herr.
Qed.

End MethodFacts.

(** ** The collaborators in memory *)

Lemma memory_honours_listing initial : honours_listing (Store.memory initial).
Proof.
  intros past b p m out H. simpl in H.
  destruct (m <? 0) eqn:Hm; [done|]. apply Z.ltb_ge in Hm.
  set (found := take (Z.to_nat m)
                  (filter (fun k => Is_true (Py.startswith k p)) (Store.replay initial past))) in *.
  assert (Hlen : (length found <= Z.to_nat m)%nat) by (subst found; rewrite length_take; lia).
  assert (Hall : Forall (fun k => Py.startswith k p = true) found).
  { apply Forall_take, Forall_forall. intros k Hk.
    apply list_elem_of_filter in Hk as [Hk _]. by apply Is_true_true. }
  destruct found as [|k ks]; injection H as <-; simpl in *; [split; [lia|constructor]|].
  split; [rewrite length_map; lia|].
  apply Forall_cons in Hall as [Hk Hks]. constructor.
  - by intros k' [= <-].
  - apply Forall_map. eapply Forall_impl; [exact Hks|]. by intros k0 Hk0 k' [= <-].
Qed.

(** The scenario of the specification: with bucket ["photos"], uploading
    ["./a.jpg"] with no key returns ["a.jpg"], the key is then listed, and after
    its deletion [object_exists] answers [False]. *)
Example scenario_photos :
  fst (upload Store.files "./a.jpg" None None (start Store.photos)) = Return "a.jpg" /\
  fst ((upload Store.files "./a.jpg" None None ;;; list_keys "") (start Store.photos))
    = Return ["a.jpg"] /\
  fst ((upload Store.files "./a.jpg" None None ;;; delete "a.jpg" ;;;
        object_exists "a.jpg") (start Store.photos)) = Return false.
Proof. by vm_compute. Qed.

(** A [ClientError] with no ["Code"] makes [object_exists] raise [KeyError]
    at its membership test, where the other operations raise their typed error
    with the code ["Unknown"]. *)
Example object_exists_without_code :
  let c := {| config := mkObjectsConfig "AK" "SK" "photos";
              _s3 := Store.failing Store.bare_error |} in
  fst (object_exists "a.jpg" (start c)) = Raise (KeyError "Code") /\
  fst (delete "a.jpg" (start c))
    = Raise (Sdk (translated (Delete "a.jpg") Store.bare_error)).
Proof. by vm_compute. Qed.

(** The wrapper itself neither truncates nor filters a listing: it hands on
    every entry the handle returns. *)
Example list_hands_on_every_entry :
  fst (list_keys "x" (start {| config := mkObjectsConfig "AK" "SK" "photos";
                               _s3 := Store.unfiltered ["x1"; "y2"] |}))
    = Return ["x1"; "y2"].
Proof. by vm_compute. Qed.

(** * The claims *)

(** C1: for a local path that is a regular file, [upload] makes one
    [upload_file] call, under a key that is the one it returns: it returns
    that key when the collaborator accepts the call, and returns no other key.
    When [object_key] is omitted the key is the base name of [local_path]. *)
Theorem upload_returns_key_used (isfile : string -> bool) local_path object_key extra_args st :
  isfile local_path = true ->
  exists k,
    calls (snd (upload isfile local_path object_key extra_args st)) =
      calls st ++ [UploadFile local_path (bucket (config (self st))) k (Py.or_dict extra_args)] /\
    (upload_file (_s3 (self st)) (calls st) local_path (bucket (config (self st))) k
       (Py.or_dict extra_args) = Return tt ->
     fst (upload isfile local_path object_key extra_args st) = Return k) /\
    (forall k', fst (upload isfile local_path object_key extra_args st) = Return k' -> k' = k) /\
    (object_key = None -> k = Py.basename local_path).
Proof.
  intros Hfile. exists (Py.or_str object_key (Py.basename local_path)).
  split; [by apply upload_calls|].
  split; [by apply upload_accepted|].
  split; [intros k'; apply upload_returned|].
  by intros ->.
Qed.

Lemma upload_returns_key_used_witness :
  exists k,
    calls (snd (upload Store.files "./a.jpg" None None (start Store.photos))) =
      [UploadFile "./a.jpg" "photos" k ∅] /\
    fst (upload Store.files "./a.jpg" None None (start Store.photos)) = Return k /\
    k = "a.jpg".
Proof.
  destruct (upload_returns_key_used Store.files "./a.jpg" None None (start Store.photos))
    as (k & Hcalls & Hret & _ & Hbase); [reflexivity|].
  exists k. split; [exact Hcalls|]. split; [by apply Hret|]. by rewrite Hbase.
Defined.

(** C2: [object_exists] returns [False] exactly when the head-object probe
    fails with a [ClientError] whose code is ["404"] or ["NoSuchKey"], returns
    [True] exactly when the probe succeeds, and raises the base [ObjectsError]
    carrying the code for a [ClientError] with any other code.  Across the
    operations, a failure of the collaborator ends in a normal return only in
    that not-found case. *)
Theorem object_exists_absorbs_not_found_only (isfile : string -> bool) object_key st :
  (fst (object_exists object_key st) = Return false <->
     exists exc c,
       head_object (_s3 (self st)) (calls st) (bucket (config (self st))) object_key
         = Raise (BotoClientError exc) /\
       error_code exc = Some c /\ (c = "404" \/ c = "NoSuchKey")) /\
  (fst (object_exists object_key st) = Return true <->
     head_object (_s3 (self st)) (calls st) (bucket (config (self st))) object_key
       = Return tt) /\
  (forall exc c,
     head_object (_s3 (self st)) (calls st) (bucket (config (self st))) object_key
       = Raise (BotoClientError exc) ->
     error_code exc = Some c -> c <> "404" -> c <> "NoSuchKey" ->
     exists err,
       fst (object_exists object_key st) = Raise (Sdk err) /\
       cls err = ObjectsError /\ code err = c /\ original err = Some exc) /\
  (forall op c e,
     request isfile (config (self st)) op = Some c ->
     answer (_s3 (self st)) (calls st) c = Raise e ->
     fst (exec isfile op st) = Return tt ->
     exists k exc code,
       op = ObjectExists k /\ e = BotoClientError exc /\
       error_code exc = Some code /\ (code = "404" \/ code = "NoSuchKey")).
Proof.
  rewrite object_exists_answer.
  split; [|split; [|split]].
  - split.
    + destruct (head_object _ _ _ _) as [[]|[| |exc| |]]; try done.
      destruct (response exc !! "Error") as [err|] eqn:Herr; simpl; [|done].
      destruct (err !! "Code") as [c|] eqn:Hc; simpl; [|done].
      destruct (Py.in_pair c "404" "NoSuchKey") eqn:Hin; [|done].
      intros _. exists exc, c. apply in_pair_spec in Hin.
      unfold error_code. by rewrite Herr.
    + intros (exc & c & -> & Hc & Hin). unfold error_code in Hc.
      destruct (response exc !! "Error") as [err|]; simpl in Hc; [|done].
      rewrite Hc. apply in_pair_spec in Hin. by rewrite Hin.
  - split.
    + destruct (head_object _ _ _ _) as [[]|[| |exc| |]]; try done.
      destruct (response exc !! "Error") as [err|]; simpl; [|done].
      destruct (err !! "Code") as [c|]; simpl; [|done].
      by destruct (Py.in_pair c "404" "NoSuchKey").
    + by intros ->.
  - intros exc c -> Hc H404 Hnsk. pose proof (error_code_entry _ _ Hc) as Hentry.
    unfold error_code in Hc.
    destruct (response exc !! "Error") as [err|]; simpl in Hc; [|done].
    rewrite Hc.
    destruct (Py.in_pair c "404" "NoSuchKey") eqn:Hin.
    { apply in_pair_spec in Hin. by destruct Hin. }
    eexists. split; [done|]. split; [done|]. split; [|done].
    by apply translated_code.
  - intros op c e. apply exec_absorbs.
Qed.

Lemma object_exists_absorbs_not_found_only_witness :
  fst (object_exists "gone.jpg" (start Store.photos)) = Return false.
Proof.
  apply (proj1 (object_exists_absorbs_not_found_only Store.files "gone.jpg" (start Store.photos))).
  exists (Store.client_error "404" "Not Found"), "404".
  split; [reflexivity|]. split; [reflexivity|]. by left.
Defined.

(** C3: for a local path that is not a regular file, [upload] raises
    [FileNotFoundError], which is no [ObjectsError], and leaves the client and
    the log of calls as they were: the collaborator is not called. *)
Theorem upload_missing_file (isfile : string -> bool) local_path object_key extra_args st :
  isfile local_path = false ->
  fst (upload isfile local_path object_key extra_args st)
    = Raise (FileNotFoundError ("File not found: " +:+ local_path)) /\
  (forall err, fst (upload isfile local_path object_key extra_args st) <> Raise (Sdk err)) /\
  snd (upload isfile local_path object_key extra_args st) = st /\
  calls (snd (upload isfile local_path object_key extra_args st)) = calls st.
Proof. intros H. by rewrite upload_missing. Qed.

Lemma upload_missing_file_witness :
  fst (upload Store.files "./b.jpg" (Some "k") None (start Store.photos))
    = Raise (FileNotFoundError "File not found: ./b.jpg") /\
  calls (snd (upload Store.files "./b.jpg" (Some "k") None (start Store.photos))) = [].
Proof.
  destruct (upload_missing_file Store.files "./b.jpg" (Some "k") None (start Store.photos))
    as (Hraise & _ & _ & Hcalls); [reflexivity|].
  split; [exact Hraise|exact Hcalls].
Defined.

(** C4: [list_keys(prefix)] makes the call [list(prefix)] makes and returns
    the [key] fields of the entries [list(prefix)] returns, in the same order:
    as many keys as entries, the key at each position being that of the entry
    at that position; it raises what [list(prefix)] raises. *)
Theorem list_keys_projects_list prefix st :
  fst (list_keys prefix st) =
    match fst (list_ prefix list_default_max_keys st) with
    | Return objs => Return (map key objs)
    | Raise e => Raise e
    end /\
  snd (list_keys prefix st) = snd (list_ prefix list_default_max_keys st) /\
  list_default_max_keys = 1000 /\
  (forall objs,
     fst (list_ prefix 1000 st) = Return objs ->
     exists keys : list string,
       fst (list_keys prefix st) = Return keys /\
       length keys = length objs /\
       forall i : nat, keys !! i = key <$> objs !! i).
Proof.
  rewrite list_keys_unfold. simpl.
  split; [done|]. split; [done|]. split; [done|].
  intros objs Hobjs. change 1000 with list_default_max_keys in Hobjs.
  rewrite Hobjs. exists (map key objs).
  split; [done|]. split; [by rewrite length_map|].
  intros i. apply list_lookup_fmap.
Qed.

Lemma list_keys_projects_list_witness :
  let st := {| self := {| config := mkObjectsConfig "AK" "SK" "photos";
                          _s3 := Store.memory ["b.jpg"; "a.jpg"] |};
               calls := [] |} in
  exists keys : list string,
    fst (list_keys "" st) = Return keys /\
    length keys = 2%nat /\
    keys !! 0%nat = Some "b.jpg" /\ keys !! 1%nat = Some "a.jpg".
Proof.
  intros st.
  destruct (list_keys_projects_list "" st) as (_ & _ & _ & Hpos).
  destruct (Hpos _ eq_refl) as (keys & Hkeys & Hlen & Hat).
  exists keys. split; [exact Hkeys|]. split; [exact Hlen|].
  split; [exact (Hat 0%nat)|exact (Hat 1%nat)].
Defined.

(** C5: [get_download_url] makes one [generate_presigned_url] call for
    ["get_object"]; its [ExpiresIn] is [config.default_expiry] when
    [expires_in] is omitted and the given value, unchanged, otherwise; the URL
    returned is the one the collaborator answers to that call. *)
Theorem get_download_url_expiry object_key st :
  calls (snd (get_download_url object_key None st)) =
    calls st ++ [GeneratePresignedUrl "get_object" (bucket (config (self st))) object_key
                   (default_expiry (config (self st)))] /\
  (forall e,
     calls (snd (get_download_url object_key (Some e) st)) =
       calls st ++ [GeneratePresignedUrl "get_object" (bucket (config (self st)))
                      object_key e]) /\
  (forall expires_in,
     fst (get_download_url object_key expires_in st) =
       match generate_presigned_url (_s3 (self st)) (calls st) "get_object"
               (bucket (config (self st))) object_key
               (match expires_in with
                | Some e => e
                | None => default_expiry (config (self st))
                end) with
       | Return url => Return url
       | Raise (BotoClientError exc) =>
           Raise (Sdk (translated (GetDownloadUrl object_key expires_in) exc))
       | Raise e => Raise e
       end).
Proof.
  split; [apply (get_download_url_calls object_key None)|].
  split; [intros e; apply (get_download_url_calls object_key (Some e))|].
  intros expires_in. run.
  by destruct (generate_presigned_url _ _ _ _ _ _) as [url|[]].
Qed.

(** C6: when the collaborator's [delete_object] fails with a [ClientError]
    coded ["AccessDenied"], [delete] raises an error whose class is the base
    [ObjectsError], whose [code] is ["AccessDenied"] and whose message holds
    the key that was to be deleted. *)
Theorem delete_access_denied object_key st exc :
  delete_object (_s3 (self st)) (calls st) (bucket (config (self st))) object_key
    = Raise (BotoClientError exc) ->
  error_code exc = Some "AccessDenied" ->
  exists err,
    fst (delete object_key st) = Raise (Sdk err) /\
    cls err = ObjectsError /\
    code err = "AccessDenied" /\
    occurs_in object_key (message err).
Proof.
  intros Hfail Hcode. exists (translated (Delete object_key) exc).
  split; [by apply delete_failed|]. split; [done|].
  split; [by apply translated_code, error_code_entry|].
  exists "Failed to delete '",
    ("': " +:+ Py.get (error_entry exc) "Message" "(no message)").
  done.
Qed.

Lemma delete_access_denied_witness :
  exists err,
    fst (delete "a.jpg"
           (start {| config := mkObjectsConfig "AK" "SK" "photos";
                     _s3 := Store.failing (Store.client_error "AccessDenied" "Access Denied") |}))
      = Raise (Sdk err) /\
    cls err = ObjectsError /\
    code err = "AccessDenied" /\
    occurs_in "a.jpg" (message err).
Proof.
  apply (delete_access_denied "a.jpg" _ (Store.client_error "AccessDenied" "Access Denied"));
    reflexivity.
Defined.




(** C8: no public operation changes the client object, so its configuration
    (and with it the bucket) stays what it was at construction, and every
    call an operation makes on the collaborator names that bucket. *)
Theorem config_fixed_and_single_bucket (isfile : string -> bool) op st :
  self (snd (exec isfile op st)) = self st /\
  config (self (snd (exec isfile op st))) = config (self st) /\
  exists new,
    calls (snd (exec isfile op st)) = calls st ++ new /\
    Forall (fun c => call_bucket c = bucket (config (self st))) new.
Proof.
  split; [apply exec_self|]. split; [by rewrite exec_self|].
  exists (option_list (request isfile (config (self st)) op)).
  split; [apply exec_calls|].
  destruct (request isfile (config (self st)) op) as [c|] eqn:Hreq; simpl; [|constructor].
  constructor; [|constructor]. by eapply request_bucket.
Qed.

(** C9: [upload] with the empty string as [object_key] uses and returns the
    base name of [local_path]: the call on the collaborator carries the base
    name as its key, and the key returned is the base name. *)
Theorem upload_empty_key_uses_basename (isfile : string -> bool) local_path extra_args st :
  isfile local_path = true ->
  calls (snd (upload isfile local_path (Some "") extra_args st)) =
    calls st ++ [UploadFile local_path (bucket (config (self st)))
                   (Py.basename local_path) (Py.or_dict extra_args)] /\
  (upload_file (_s3 (self st)) (calls st) local_path (bucket (config (self st)))
     (Py.basename local_path) (Py.or_dict extra_args) = Return tt ->
   fst (upload isfile local_path (Some "") extra_args st) = Return (Py.basename local_path)) /\
  (forall k, fst (upload isfile local_path (Some "") extra_args st) = Return k ->
             k = Py.basename local_path).
Proof.
  intros Hfile.
  split; [by apply (upload_calls isfile local_path (Some ""))|].
  split; [by apply (upload_accepted isfile local_path (Some ""))|].
  intros k. apply (upload_returned isfile local_path (Some "")).
Qed.

Lemma upload_empty_key_uses_basename_witness :
  calls (snd (upload Store.files "./a.jpg" (Some "") None (start Store.photos))) =
    [UploadFile "./a.jpg" "photos" "a.jpg" ∅] /\
  fst (upload Store.files "./a.jpg" (Some "") None (start Store.photos)) = Return "a.jpg".
Proof.
  destruct (upload_empty_key_uses_basename Store.files "./a.jpg" None (start Store.photos))
    as (Hcalls & Hret & _); [reflexivity|].
  split; [exact Hcalls|]. by apply Hret.
Defined.

(** C10: when the call an operation makes fails with a [ClientError], the
    typed error the operation raises has the code ["Unknown"] if the response
    carries no ["Code"] and a message composed with ["(no message)"] if it
    carries no ["Message"]; [upload], [list], [list_keys], [get_download_url]
    and [delete] always raise that typed error, and so does [object_exists]
    for a code other than the two not-found codes. *)
Theorem missing_fields_default (isfile : string -> bool) op st c exc :
  request isfile (config (self st)) op = Some c ->
  answer (_s3 (self st)) (calls st) c = Raise (BotoClientError exc) ->
  ((forall k, op = ObjectExists k ->
      exists code, error_code exc = Some code /\ code <> "404" /\ code <> "NoSuchKey") ->
   fst (exec isfile op st) = Raise (Sdk (translated op exc))) /\
  (forall err,
     fst (exec isfile op st) = Raise (Sdk err) ->
     err = translated op exc /\
     cls err = error_class op /\
     original err = Some exc /\
     (error_entry exc !! "Code" = None -> code err = "Unknown") /\
     (error_entry exc !! "Message" = None ->
      message err = message_text op "(no message)")) /\
  _parse_client_error exc =
    (default "Unknown" (error_entry exc !! "Code"),
     default "(no message)" (error_entry exc !! "Message")).
Proof.
  intros Hreq Hans.
  assert (Hexists : forall k, op = ObjectExists k ->
            fst (exec isfile op st) =
              match response exc !! "Error" with
              | None => Raise (KeyError "Error")
              | Some err =>
                  match err !! "Code" with
                  | None => Raise (KeyError "Code")
                  | Some c =>
                      if Py.in_pair c "404" "NoSuchKey" then Return tt
                      else Raise (Sdk (translated op exc))
                  end
              end).
  { intros k ->. simpl in *. injection Hreq as <-. simpl in Hans.
    unfold void; simpl. rewrite object_exists_answer, Hans.
    destruct (response exc !! "Error") as [err|]; [|done].
    destruct (err !! "Code") as [code|]; [|done].
    by destruct (Py.in_pair code "404" "NoSuchKey"). }
  assert (Hother : (forall k, op <> ObjectExists k) ->
            fst (exec isfile op st) = Raise (Sdk (translated op exc)))
    by (intros; by eapply exec_translates).
  assert (Hraised : forall err, fst (exec isfile op st) = Raise (Sdk err) ->
            err = translated op exc).
  { intros err Herr.
    destruct op; try (rewrite Hother in Herr by done; congruence).
    rewrite (Hexists _ eq_refl) in Herr.
    destruct (response exc !! "Error") as [e|]; [|done].
    destruct (e !! "Code") as [code|]; [|done].
    destruct (Py.in_pair code "404" "NoSuchKey"); [done|congruence]. }
  split; [|split; [|done]].
  - intros Hbranch.
    destruct op; try (by apply Hother).
    destruct (Hbranch _ eq_refl) as (code & Hcode & H404 & Hnsk).
    rewrite (Hexists _ eq_refl). unfold error_code in Hcode.
    destruct (response exc !! "Error") as [e|]; simpl in Hcode; [|done].
    rewrite Hcode.
    destruct (Py.in_pair code "404" "NoSuchKey") eqn:Hin; [|done].
    apply in_pair_spec in Hin. by destruct Hin.
  - intros err Herr. apply Hraised in Herr as ->.
    split; [done|]. split; [done|]. split; [done|].
    split; [apply translated_code_missing|apply translated_message_missing].
Qed.

Lemma missing_fields_default_witness :
  exists err,
    fst (delete "a.jpg"
           (start {| config := mkObjectsConfig "AK" "SK" "photos";
                     _s3 := Store.failing Store.bare_error |}))
      = Raise (Sdk err) /\
    code err = "Unknown" /\
    message err = "Failed to delete 'a.jpg': (no message)".
Proof.
  pose (st := start {| config := mkObjectsConfig "AK" "SK" "photos";
                       _s3 := Store.failing Store.bare_error |}).
  destruct (missing_fields_default Store.files (Delete "a.jpg") st
              (DeleteObject "photos" "a.jpg") Store.bare_error eq_refl eq_refl)
    as (Hraise & Hdefaults & _).
  exists (translated (Delete "a.jpg") Store.bare_error).
  destruct (Hdefaults _ (Hraise ltac:(done))) as (_ & _ & _ & Hcode & Hmsg).
  split; [reflexivity|]. split; [by apply Hcode|by apply Hmsg].
Defined.

(** * Further properties of the code *)

(** ** [strip] *)

Lemma lstrip_first c s : first_char (Py.lstrip c s) <> Some c.
Proof.
  induction s as [|a r IH]; simpl; [done|].
  destruct (Ascii.eqb_spec a c); [done|]. simpl. congruence.
Qed.

Lemma lstrip_split c s : exists n, s = repeat_char n c +:+ Py.lstrip c s.
Proof.
  induction s as [|a r [n IH]]; simpl; [by exists O|].
  destruct (Ascii.eqb_spec a c) as [->|_]; [|by exists O].
  exists (S n). change (String c r = String c (repeat_char n c +:+ Py.lstrip c r)).
  by f_equal.
Qed.

Lemma rstrip_last c s : last_char (Py.rstrip c s) <> Some c.
Proof.
  induction s as [|a r IH]; simpl; [done|].
  destruct (Py.rstrip c r) as [|b r'] eqn:E.
  - destruct (Ascii.eqb_spec a c); simpl; congruence.
  - exact IH.
Qed.

Lemma rstrip_first c s :
  first_char s <> Some c -> first_char (Py.rstrip c s) <> Some c.
Proof.
  destruct s as [|a r]; simpl; [done|]. intros Hne.
  destruct (Py.rstrip c r); [|done].
  destruct (Ascii.eqb_spec a c); simpl; congruence.
Qed.

Lemma rstrip_split c s : exists m, s = Py.rstrip c s +:+ repeat_char m c.
Proof.
  induction s as [|a r [m IH]]; simpl; [by exists O|].
  destruct (Py.rstrip c r) as [|b r'] eqn:E.
  - destruct (Ascii.eqb_spec a c) as [->|_].
    + exists (S m). change (String c r = String c (repeat_char m c)). by f_equal.
    + exists m. change (String a r = String a ("" +:+ repeat_char m c)). by f_equal.
  - exists m. change (String a r = String a (String b r' +:+ repeat_char m c)). by f_equal.
Qed.

(** [strip] takes characters [c] off both ends, nothing else, and leaves none
    at either end. *)
Lemma strip_spec c s :
  first_char (Py.strip c s) <> Some c /\
  last_char (Py.strip c s) <> Some c /\
  exists n m, s = repeat_char n c +:+ Py.strip c s +:+ repeat_char m c.
Proof.
  unfold Py.strip. split; [apply rstrip_first, lstrip_first|].
  split; [apply rstrip_last|].
  destruct (lstrip_split c s) as [n Hn], (rstrip_split c (Py.lstrip c s)) as [m Hm].
  exists n, m. by rewrite <- Hm.
Qed.

(** ** The entries of a listing *)

Lemma object_info_fields obj info :
  object_info obj = Return info ->
  Key obj = Some (key info) /\
  Size obj = Some (size info) /\
  Py.str <$> LastModified obj = Some (last_modified info) /\
  etag info = Py.strip Py.dquote (default "" (ETag obj)).
Proof.
  unfold object_info, getitem.
  destruct (Key obj), (Size obj), (LastModified obj); try done.
  by intros [= <-].
Qed.

Lemma object_info_returns obj :
  well_formed obj <-> exists info, object_info obj = Return info.
Proof.
  unfold well_formed, object_info, getitem. split.
  - intros ([k ->] & [s ->] & [lm ->]). by eexists.
  - intros [info H]. by destruct (Key obj), (Size obj), (LastModified obj).
Qed.

Lemma object_info_raises obj e :
  object_info obj = Raise e ->
  e = KeyError "Key" \/ e = KeyError "Size" \/ e = KeyError "LastModified".
Proof.
  unfold object_info, getitem.
  destruct (Key obj), (Size obj), (LastModified obj); intros [= <-]; auto.
Qed.

Lemma comprehension_returns {A B} (f : A -> result B) l :
  Forall (fun x => exists y, f x = Return y) l <-> exists ys, comprehension f l = Return ys.
Proof.
  induction l as [|x r IH]; simpl.
  - split; [by exists []|constructor].
  - split.
    + intros H. apply Forall_cons in H as [[y Hy] Hr]. apply IH in Hr as [ys Hys].
      rewrite Hy, Hys. by eexists.
    + intros [ys H]. destruct (f x) as [y|] eqn:Hy; [|done].
      destruct (comprehension f r) as [ys'|] eqn:Hys; [|done].
      constructor; [by exists y|]. apply IH. by exists ys'.
Qed.

Lemma comprehension_raises {A B} (f : A -> result B) l e :
  comprehension f l = Raise e -> exists x, x ∈ l /\ f x = Raise e.
Proof.
  induction l as [|x r IH]; simpl; [done|].
  destruct (f x) as [y|e'] eqn:Hy.
  - destruct (comprehension f r) as [ys|e'']; [done|].
    intros [= ->]. destruct IH as (x' & Hin & Hx'); [done|].
    exists x'. split; [by right|done].
  - intros [= ->]. exists x. split; [by left|done].
Qed.

Lemma error_entry_code exc cd :
  error_entry exc !! "Code" = Some cd -> error_code exc = Some cd.
Proof.
  unfold error_entry, error_code, Py.get.
  by destruct (response exc !! "Error") as [err|]; simpl.
Qed.

Lemma translated_fields op exc cd msg :
  error_entry exc !! "Code" = Some cd ->
  error_entry exc !! "Message" = Some msg ->
  code (translated op exc) = cd /\ message (translated op exc) = message_text op msg.
Proof.
  intros Hc Hm. split; [by apply translated_code|].
  change (message (translated op exc))
    with (message_text op (default "(no message)" (error_entry exc !! "Message"))).
  by rewrite Hm.
Qed.

(** ** What each operation sends and raises *)

(** X1: for a regular file and a non-empty [object_key], [upload] sends the file
    under exactly that key, whatever the path, and returns no other key; the
    [ExtraArgs] it sends are the dictionary given, or the empty one when
    [extra_args] is omitted. *)
Theorem upload_explicit_key (isfile : string -> bool) local_path k extra_args st :
  isfile local_path = true ->
  k <> "" ->
  calls (snd (upload isfile local_path (Some k) extra_args st)) =
    calls st ++ [UploadFile local_path (bucket (config (self st))) k (default ∅ extra_args)] /\
  (upload_file (_s3 (self st)) (calls st) local_path (bucket (config (self st))) k
     (default ∅ extra_args) = Return tt ->
   fst (upload isfile local_path (Some k) extra_args st) = Return k) /\
  (forall k', fst (upload isfile local_path (Some k) extra_args st) = Return k' -> k' = k).
Proof.
  intros Hfile Hk.
  pose proof (or_str_given k (Py.basename local_path) Hk) as Hor.
  assert (Hx : Py.or_dict extra_args = default ∅ extra_args) by by destruct extra_args.
  split; [by rewrite upload_calls, Hor, Hx|].
  split.
  - intros Hok. rewrite (upload_accepted isfile local_path (Some k)); rewrite ?Hor, ?Hx; done.
  - intros k' Hret. apply upload_returned in Hret. by rewrite Hor in Hret.
Qed.

Lemma upload_explicit_key_witness :
  calls (snd (upload Store.files "./a.jpg" (Some "2024/cat.jpg")
                (Some {[ "ContentType" := "image/jpeg" ]}) (start Store.photos))) =
    [UploadFile "./a.jpg" "photos" "2024/cat.jpg" {[ "ContentType" := "image/jpeg" ]}] /\
  fst (upload Store.files "./a.jpg" (Some "2024/cat.jpg")
         (Some {[ "ContentType" := "image/jpeg" ]}) (start Store.photos))
    = Return "2024/cat.jpg".
Proof.
  destruct (upload_explicit_key Store.files "./a.jpg" "2024/cat.jpg"
              (Some {[ "ContentType" := "image/jpeg" ]}) (start Store.photos))
    as (Hcalls & Hret & _); [reflexivity|done|].
  split; [exact Hcalls|by apply Hret].
Defined.

(** X2: an exception of the collaborator that is not a [ClientError] leaves
    every operation as it is: it is neither wrapped nor absorbed. *)
Theorem other_exceptions_propagate (isfile : string -> bool) op st c e :
  request isfile (config (self st)) op = Some c ->
  answer (_s3 (self st)) (calls st) c = Raise e ->
  (forall exc, e <> BotoClientError exc) ->
  fst (exec isfile op st) = Raise e.
Proof.
  intros Hreq Hans Hne.
  destruct op; simpl in Hreq; try (destruct (isfile local_path) eqn:Hf; [|done]);
    injection Hreq as <-; simpl in Hans.
  - run. rewrite Hf. simpl. rewrite Hans. destruct e; try done. by destruct (Hne e).
  - run. destruct (list_objects_v2 _ _ _ _ _) as [|e']; [done|].
    simpl in Hans. injection Hans as ->. destruct e; try done. by destruct (Hne e).
  - run. destruct (list_objects_v2 _ _ _ _ _) as [|e']; [done|].
    simpl in Hans. injection Hans as ->. destruct e; try done. by destruct (Hne e).
  - run. destruct expires_in; simpl in *;
      (destruct (generate_presigned_url _ _ _ _ _ _) as [|e']; [done|]);
      simpl in Hans; injection Hans as ->; (destruct e; try done); by destruct (Hne e).
  - run. rewrite Hans. destruct e; try done. by destruct (Hne e).
  - unfold void. simpl. rewrite object_exists_answer, Hans.
    destruct e; try done. by destruct (Hne e).
Qed.

Lemma other_exceptions_propagate_witness :
  fst (exec Store.files (GetDownloadUrl "a.jpg" None)
         (start (Mock.over (Mock.raising (OtherException "EndpointConnectionError")))))
    = Raise (OtherException "EndpointConnectionError").
Proof.
  apply (other_exceptions_propagate Store.files (GetDownloadUrl "a.jpg" None) _
           (GeneratePresignedUrl "get_object" "photos" "a.jpg" 86400));
    [reflexivity|reflexivity|done].
Defined.

(** X3: a [ClientError] whose response carries a code and a message becomes
    an error of the class of the operation ([UploadError] for [upload],
    [ListError] for [list] and [list_keys], [DownloadError] for
    [get_download_url], the base [ObjectsError] for [delete] and
    [object_exists]), which [except ObjectsError] catches; it carries the
    collaborator's code unchanged, the collaborator's message after the text
    of the operation, and the [ClientError] itself as [original].  For
    [object_exists] the code must be other than the two not-found codes. *)
Theorem client_error_becomes_typed_error (isfile : string -> bool) op st c exc cd msg :
  request isfile (config (self st)) op = Some c ->
  answer (_s3 (self st)) (calls st) c = Raise (BotoClientError exc) ->
  error_entry exc !! "Code" = Some cd ->
  error_entry exc !! "Message" = Some msg ->
  (forall k, op = ObjectExists k -> cd <> "404" /\ cd <> "NoSuchKey") ->
  exists err,
    fst (exec isfile op st) = Raise (Sdk err) /\
    cls err = error_class op /\
    issubclass (cls err) ObjectsError = true /\
    code err = cd /\
    message err = message_text op msg /\
    original err = Some exc.
Proof.
  intros Hreq Hans Hcd Hmsg Hexists.
  destruct (translated_fields op exc cd msg Hcd Hmsg) as [Hc Hm].
  exists (translated op exc).
  split; [|by rewrite issubclass_base].
  assert (Hcase : (exists k, op = ObjectExists k) \/ (forall k, op <> ObjectExists k))
    by (destruct op; first [by right|left; by eexists]).
  destruct Hcase as [[k ->]|Hother].
  - destruct (Hexists k eq_refl) as [H404 Hnsk].
    simpl in Hreq. injection Hreq as <-. simpl in Hans.
    unfold void. simpl. rewrite object_exists_answer, Hans.
    apply error_entry_code in Hcd. unfold error_code in Hcd.
    destruct (response exc !! "Error") as [err|]; simpl in Hcd; [|done].
    rewrite Hcd.
    destruct (Py.in_pair cd "404" "NoSuchKey") eqn:Hin; [|done].
    apply in_pair_spec in Hin. by destruct Hin.
  - by eapply exec_translates.
Qed.

Lemma client_error_becomes_typed_error_witness :
  exists err,
    fst (exec Store.files (Upload "./a.jpg" None None)
           (start (Mock.over (Store.failing (Store.client_error "SlowDown" "Reduce your rate")))))
      = Raise (Sdk err) /\
    cls err = UploadError /\
    code err = "SlowDown" /\
    message err = "Upload failed for './a.jpg': Reduce your rate".
Proof.
  destruct (client_error_becomes_typed_error Store.files (Upload "./a.jpg" None None)
              (start (Mock.over (Store.failing (Store.client_error "SlowDown" "Reduce your rate"))))
              (UploadFile "./a.jpg" "photos" "a.jpg" ∅)
              (Store.client_error "SlowDown" "Reduce your rate") "SlowDown" "Reduce your rate")
    as (err & Hraise & Hcls & _ & Hcode & Hmsg & _);
    [reflexivity|reflexivity|reflexivity|reflexivity|done|].
  exists err. split; [exact Hraise|]. split; [exact Hcls|]. split; [exact Hcode|exact Hmsg].
Defined.

(** X4: an operation makes one call on the collaborator, whether the call
    succeeds or fails (no retry, no second page of a listing, no probe before
    a URL is signed), and none at all only when [upload] finds no file. *)
Theorem one_call_per_operation (isfile : string -> bool) op st :
  exists new,
    calls (snd (exec isfile op st)) = calls st ++ new /\
    (length new <= 1)%nat /\
    (new = [] <-> exists p k x, op = Upload p k x /\ isfile p = false).
Proof.
  exists (option_list (request isfile (config (self st)) op)).
  split; [apply exec_calls|].
  destruct op; simpl; try (split; [lia|]; split; [done|]; by intros (? & ? & ? & ? & ?)).
  destruct (isfile local_path) eqn:Hf; simpl; (split; [lia|]); split; try done.
  - intros (p & k & x & [= <- <- <-] & Hp). congruence.
  - intros _. by exists local_path, object_key, extra_args.
Qed.

(** ** Listings *)

(** X5: when the listing succeeds and [list] returns, it returns one entry
    per entry of ["Contents"], in the same order, with [key] the ["Key"],
    [size] the ["Size"], [last_modified] the text of ["LastModified"] and
    [etag] the ["ETag"] (the empty string when absent) stripped of double
    quotes. *)
Theorem list_entries_follow_contents prefix max_keys st out objs :
  list_objects_v2 (_s3 (self st)) (calls st) (bucket (config (self st))) prefix max_keys
    = Return out ->
  fst (list_ prefix max_keys st) = Return objs ->
  length objs = length (default [] (Contents out)) /\
  Forall2
    (fun obj info =>
       Key obj = Some (key info) /\
       Size obj = Some (size info) /\
       Py.str <$> LastModified obj = Some (last_modified info) /\
       etag info = Py.strip Py.dquote (default "" (ETag obj)))
    (default [] (Contents out)) objs.
Proof.
  intros Hout Hret. rewrite (list_answered _ _ _ _ Hout) in Hret.
  apply comprehension_Forall2 in Hret.
  split; [by rewrite (Forall2_length _ _ _ Hret)|].
  eapply Forall2_impl; [exact Hret|]. intros obj info. apply object_info_fields.
Qed.

Lemma list_entries_follow_contents_witness :
  let st := start (Mock.over (Store.memory ["b.jpg"; "a.jpg"])) in
  exists objs,
    fst (list_ "" 10 st) = Return objs /\
    length objs = 2%nat /\
    key <$> objs !! 0%nat = Some "b.jpg" /\
    etag <$> objs !! 0%nat = Some "9b2cf535f27731c9".
Proof.
  intros st.
  pose (out := {| Contents := Some [Store.entry "b.jpg"; Store.entry "a.jpg"] |}).
  pose (objs := [ {| key := "b.jpg"; size := 5; last_modified := "2024-05-01 10:00:00+00:00";
                     etag := "9b2cf535f27731c9" |};
                  {| key := "a.jpg"; size := 5; last_modified := "2024-05-01 10:00:00+00:00";
                     etag := "9b2cf535f27731c9" |} ]).
  destruct (list_entries_follow_contents "" 10 st out objs) as [Hlen Hall];
    [reflexivity|reflexivity|].
  exists objs. split; [reflexivity|]. split; [exact Hlen|]. split; reflexivity.
Defined.

(** X6: when the listing succeeds, [list] returns exactly when every entry
    of ["Contents"] has its ["Key"], ["Size"] and ["LastModified"] (a missing
    ["ETag"] is accepted); otherwise it raises [KeyError] for one of these
    three names, never a [ListError], and returns no part of the listing. *)
Theorem list_needs_three_fields prefix max_keys st out :
  list_objects_v2 (_s3 (self st)) (calls st) (bucket (config (self st))) prefix max_keys
    = Return out ->
  ((exists objs, fst (list_ prefix max_keys st) = Return objs) <->
     Forall well_formed (default [] (Contents out))) /\
  (forall e,
     fst (list_ prefix max_keys st) = Raise e ->
     (e = KeyError "Key" \/ e = KeyError "Size" \/ e = KeyError "LastModified") /\
     exists obj, obj ∈ default [] (Contents out) /\ ~ well_formed obj).
Proof.
  intros Hout. rewrite (list_answered _ _ _ _ Hout). split.
  - rewrite <- comprehension_returns. apply Forall_iff. intros obj.
    symmetry. apply object_info_returns.
  - intros e He. apply comprehension_raises in He as (obj & Hin & Hobj).
    split; [by eapply object_info_raises|].
    exists obj. split; [done|]. intros [info Hinfo]%object_info_returns. congruence.
Qed.

Lemma list_needs_three_fields_witness :
  let good := {| Contents := Some [ {| Key := Some "a.jpg"; Size := Some 3;
                                       LastModified := Some {| Py.dt_text := "today" |};
                                       ETag := None |} ] |} in
  let bad := {| Contents := Some [Store.entry "a.jpg"; Mock.sizeless "b.jpg"] |} in
  (exists objs, fst (list_ "" 10 (start (Mock.over (Mock.listing good)))) = Return objs) /\
  fst (list_ "" 10 (start (Mock.over (Mock.listing bad)))) = Raise (KeyError "Size") /\
  exists obj, obj ∈ default [] (Contents bad) /\ ~ well_formed obj.
Proof.
  intros good bad.
  destruct (list_needs_three_fields "" 10 (start (Mock.over (Mock.listing good))) good eq_refl)
    as [Hreturns _].
  destruct (list_needs_three_fields "" 10 (start (Mock.over (Mock.listing bad))) bad eq_refl)
    as [_ Hraises].
  split; [apply Hreturns; repeat constructor; by eexists|].
  split; [reflexivity|].
  by destruct (Hraises (KeyError "Size") eq_refl) as [_ Hobj].
Defined.

(** X7: the [etag] of every entry [list] returns is the ["ETag"] of the
    collaborator with double quotes taken off both ends and nothing else
    changed: it neither starts nor ends with a double quote. *)
Theorem etag_without_surrounding_quotes prefix max_keys st objs :
  fst (list_ prefix max_keys st) = Return objs ->
  exists out,
    list_objects_v2 (_s3 (self st)) (calls st) (bucket (config (self st))) prefix max_keys
      = Return out /\
    Forall2
      (fun obj info =>
         first_char (etag info) <> Some Py.dquote /\
         last_char (etag info) <> Some Py.dquote /\
         exists n m,
           default "" (ETag obj) =
             repeat_char n Py.dquote +:+ etag info +:+ repeat_char m Py.dquote)
      (default [] (Contents out)) objs.
Proof.
  intros Hret. apply list_returned in Hret as (out & Hout & Hcomp).
  exists out. split; [done|]. apply comprehension_Forall2 in Hcomp.
  eapply Forall2_impl; [exact Hcomp|]. intros obj info Hinfo.
  apply object_info_fields in Hinfo as (_ & _ & _ & ->). apply strip_spec.
Qed.

Lemma etag_without_surrounding_quotes_witness :
  exists out,
    list_objects_v2 (Store.memory ["a.jpg"]) [] "photos" "" 10 = Return out /\
    Forall2
      (fun obj info =>
         first_char (etag info) <> Some Py.dquote /\
         last_char (etag info) <> Some Py.dquote /\
         exists n m,
           default "" (ETag obj) =
             repeat_char n Py.dquote +:+ etag info +:+ repeat_char m Py.dquote)
      (default [] (Contents out))
      [ {| key := "a.jpg"; size := 5; last_modified := "2024-05-01 10:00:00+00:00";
           etag := "9b2cf535f27731c9" |} ].
Proof.
  apply (etag_without_surrounding_quotes "" 10 (start (Mock.over (Store.memory ["a.jpg"])))).
  reflexivity.
Defined.

(** X8: [list_keys] always asks for at most 1000 keys: with a collaborator
    whose listing honours [Prefix] and [MaxKeys] it returns at most 1000
    keys, each starting with [prefix]. *)
Theorem list_keys_at_most_1000 prefix st keys :
  honours_listing (_s3 (self st)) ->
  fst (list_keys prefix st) = Return keys ->
  calls (snd (list_keys prefix st)) =
    calls st ++ [ListObjectsV2 (bucket (config (self st))) prefix 1000] /\
  (length keys <= 1000)%nat /\
  Forall (fun k => Py.startswith k prefix = true) keys.
Proof.
  intros Hhon Hret. rewrite list_keys_unfold in *. simpl in *.
  split; [apply list_calls|].
  destruct (fst (list_ prefix list_default_max_keys st)) as [objs|] eqn:Hlist; [|done].
  injection Hret as <-.
  apply list_returned in Hlist as (out & Hout & Hcomp).
  destruct (Hhon _ _ _ _ _ Hout) as [Hlen Hpre].
  apply comprehension_Forall2 in Hcomp.
  split.
  - rewrite length_map, <- (Forall2_length _ _ _ Hcomp).
    unfold list_default_max_keys in Hlen. lia.
  - apply Forall_map. clear Hlen Hout.
    induction Hcomp as [|obj info l ys Hinfo _ IH]; [constructor|].
    apply Forall_cons in Hpre as [Hobj Hl]. constructor; [|by apply IH].
    by apply Hobj, object_info_key.
Qed.

Lemma list_keys_at_most_1000_witness :
  let st := start (Mock.over (Store.memory ["x1.jpg"; "y.jpg"; "x2.jpg"])) in
  fst (list_keys "x" st) = Return ["x1.jpg"; "x2.jpg"] /\
  calls (snd (list_keys "x" st)) = [ListObjectsV2 "photos" "x" 1000] /\
  Forall (fun k => Py.startswith k "x" = true) ["x1.jpg"; "x2.jpg"].
Proof.
  intros st.
  destruct (list_keys_at_most_1000 "x" st ["x1.jpg"; "x2.jpg"] (memory_honours_listing _))
    as (Hcalls & _ & Hpre); [reflexivity|].
  split; [reflexivity|]. split; [exact Hcalls|exact Hpre].
Defined.

(** ** Errors *)

(** X9: when the probe of [object_exists] fails with a [ClientError] whose
    response has no ["Error"] entry, or an ["Error"] entry with no ["Code"],
    [object_exists] raises [KeyError] for the missing name: neither a boolean
    nor an [ObjectsError]. *)
Theorem object_exists_needs_code object_key st exc :
  head_object (_s3 (self st)) (calls st) (bucket (config (self st))) object_key
    = Raise (BotoClientError exc) ->
  error_code exc = None ->
  exists name,
    fst (object_exists object_key st) = Raise (KeyError name) /\
    (response exc !! "Error" = None -> name = "Error") /\
    (is_Some (response exc !! "Error") -> name = "Code").
Proof.
  intros Hprobe Hcode. rewrite object_exists_answer, Hprobe. unfold error_code in Hcode.
  destruct (response exc !! "Error") as [err|]; simpl in Hcode.
  - rewrite Hcode. exists "Code". split; [done|]. split; [done|done].
  - exists "Error". split; [done|]. split; [done|]. by intros [? ?].
Qed.

Lemma object_exists_needs_code_witness :
  exists name,
    fst (object_exists "a.jpg" (start (Mock.over (Store.failing Store.bare_error))))
      = Raise (KeyError name) /\
    name = "Code".
Proof.
  destruct (object_exists_needs_code "a.jpg"
              (start (Mock.over (Store.failing Store.bare_error))) Store.bare_error)
    as (name & Hraise & _ & Hname); [reflexivity|reflexivity|].
  exists name. split; [exact Hraise|]. apply Hname. by eexists.
Defined.

(** X10: the text [str()] gives for the error an operation raises for a
    [ClientError] is the message after the code in square brackets; the
    brackets are left out only when the collaborator's code is the empty
    string, and a response with no code prints as [[Unknown]]. *)
Theorem str_of_raised_error (isfile : string -> bool) op st c exc :
  request isfile (config (self st)) op = Some c ->
  answer (_s3 (self st)) (calls st) c = Raise (BotoClientError exc) ->
  (forall k, op <> ObjectExists k) ->
  exists err,
    fst (exec isfile op st) = Raise (Sdk err) /\
    (code err <> "" -> __str__ err = "[" +:+ code err +:+ "] " +:+ message err) /\
    (code err = "" -> __str__ err = message err /\ error_entry exc !! "Code" = Some "") /\
    (error_entry exc !! "Code" = None -> __str__ err = "[Unknown] " +:+ message err).
Proof.
  intros Hreq Hans Hop. exists (translated op exc).
  split; [by eapply exec_translates|].
  split; [|split].
  - unfold __str__. by destruct (code (translated op exc)).
  - intros Hempty. unfold __str__. rewrite Hempty. split; [done|].
    change (code (translated op exc))
      with (default "Unknown" (error_entry exc !! "Code")) in Hempty.
    destruct (error_entry exc !! "Code") as [cd|]; simpl in Hempty; [by subst|done].
  - intros Hnone. unfold __str__. by rewrite (translated_code_missing _ _ Hnone).
Qed.

Lemma str_of_raised_error_witness :
  exists err,
    fst (exec Store.files (Delete "a.jpg") (start (Mock.over (Store.failing Store.bare_error))))
      = Raise (Sdk err) /\
    __str__ err = "[Unknown] Failed to delete 'a.jpg': (no message)".
Proof.
  destruct (str_of_raised_error Store.files (Delete "a.jpg")
              (start (Mock.over (Store.failing Store.bare_error)))
              (DeleteObject "photos" "a.jpg") Store.bare_error)
    as (err & Hraise & _ & _ & Hstr); [reflexivity|reflexivity|done|].
  exists err. split; [exact Hraise|].
  rewrite Hstr by reflexivity.
  injection Hraise as <-. reflexivity.
Defined.

(** ** Construction *)

Lemma fixed_collision (extra : gmap string string) :
  existsb (fun kv => bool_decide (is_Some ((OptStr <$> extra) !! kv.1))) fixed_options = true
  <-> exists k, k ∈ fixed_options.*1 /\ is_Some (extra !! k).
Proof.
  rewrite existsb_exists. split.
  - intros ([k v] & Hin & Hsome). apply bool_decide_eq_true in Hsome.
    rewrite lookup_fmap, fmap_is_Some in Hsome.
    exists k. split; [|done]. apply list_elem_of_fmap. exists (k, v).
    split; [done|]. by apply list_elem_of_In.
  - intros (k & Hin & Hsome). apply list_elem_of_fmap in Hin as ([k' v] & -> & Hin).
    exists (k', v). split; [by apply list_elem_of_In|].
    apply bool_decide_eq_true. by rewrite lookup_fmap, fmap_is_Some.
Qed.

(** X11: a configuration whose [extra_boto_config] names one of the four
    options the client fixes ([signature_version], [s3],
    [request_checksum_calculation], [response_checksum_validation]) cannot be
    used: construction raises [TypeError], whatever boto3 would do. *)
Theorem fixed_option_cannot_be_overridden {BotoConfig} (boto3 : Boto3 BotoConfig) cfg k :
  k ∈ ["signature_version"; "s3"; "request_checksum_calculation";
       "response_checksum_validation"] ->
  is_Some (extra_boto_config cfg !! k) ->
  __init__ boto3 cfg = Raise (OtherException "TypeError").
Proof.
  intros Hin Hsome. unfold __init__, _build_client, call_kwargs.
  by rewrite (proj2 (fixed_collision (extra_boto_config cfg)))
    by (by exists k).
Qed.

Lemma fixed_option_cannot_be_overridden_witness :
  __init__ Mock.boto3
    {| access_key := "AK"; secret_key := "SK"; bucket := "photos";
       endpoint := DEFAULT_ENDPOINT; default_expiry := 60;
       extra_boto_config := {[ "signature_version" := "s3" ]} |}
    = Raise (OtherException "TypeError").
Proof.
  apply (fixed_option_cannot_be_overridden Mock.boto3 _ "signature_version").
  - by left.
  - by eexists.
Defined.

(** X12: with an [extra_boto_config] that names none of the four fixed
    options, [Config] is given the four fixed options with their fixed values
    together with every extra option, and nothing else; the client is built
    for ["s3"] with the endpoint and the two keys of the configuration, and
    the object constructed holds the configuration it was given.  A failure
    of [Config] or of [boto3.client] is the failure of the construction. *)
Theorem client_built_with_fixed_options {BotoConfig} (boto3 : Boto3 BotoConfig) cfg :
  (forall k, k ∈ ["signature_version"; "s3"; "request_checksum_calculation";
                  "response_checksum_validation"] ->
             extra_boto_config cfg !! k = None) ->
  exists kwargs : gmap string OptVal,
    kwargs !! "signature_version" = Some (OptStr "s3v4") /\
    kwargs !! "s3" = Some (OptDict {[ "addressing_style" := "path" ]}) /\
    kwargs !! "request_checksum_calculation" = Some (OptStr "when_required") /\
    kwargs !! "response_checksum_validation" = Some (OptStr "when_required") /\
    (forall k v, extra_boto_config cfg !! k = Some v -> kwargs !! k = Some (OptStr v)) /\
    (forall k, is_Some (kwargs !! k) ->
               k ∈ ["signature_version"; "s3"; "request_checksum_calculation";
                    "response_checksum_validation"] \/
               is_Some (extra_boto_config cfg !! k)) /\
    __init__ boto3 cfg =
      match Config boto3 kwargs with
      | Raise e => Raise e
      | Return boto_config =>
          match client boto3 "s3" (endpoint cfg) (access_key cfg) (secret_key cfg)
                  boto_config with
          | Raise e => Raise e
          | Return h => Return {| config := cfg; _s3 := h |}
          end
      end.
Proof.
  intros Hfree.
  exists (list_to_map fixed_options ∪ (OptStr <$> extra_boto_config cfg)).
  assert (Hno : existsb (fun kv => bool_decide
                           (is_Some ((OptStr <$> extra_boto_config cfg) !! kv.1)))
                  fixed_options = false).
  { apply not_true_is_false. intros (k & Hin & [v Hv])%fixed_collision.
    rewrite (Hfree k Hin) in Hv. done. }
  split; [by apply lookup_union_Some_l|].
  split; [by apply lookup_union_Some_l|].
  split; [by apply lookup_union_Some_l|].
  split; [by apply lookup_union_Some_l|].
  split; [|split].
  - intros k v Hv.
    assert (Hk : k ∉ fixed_options.*1).
    { intros Hin. rewrite (Hfree k Hin) in Hv. done. }
    rewrite lookup_union_r by by apply not_elem_of_list_to_map_1.
    by rewrite lookup_fmap, Hv.
  - intros k [v Hv]. apply lookup_union_Some_raw in Hv as [Hv|[_ Hv]].
    + left. apply elem_of_list_to_map_2 in Hv.
      change (k ∈ fixed_options.*1). apply list_elem_of_fmap. by exists (k, v).
    + right. rewrite lookup_fmap in Hv.
      destruct (extra_boto_config cfg !! k) as [x|]; [by exists x|done].
  - unfold __init__, _build_client, call_kwargs. rewrite Hno.
    destruct (Config boto3 _) as [bc|]; [|done]. by destruct (client _ _ _ _ _ _).
Qed.

Lemma client_built_with_fixed_options_witness :
  exists c,
    __init__ Mock.boto3
      {| access_key := "AK"; secret_key := "SK"; bucket := "photos";
         endpoint := DEFAULT_ENDPOINT; default_expiry := 60;
         extra_boto_config := {[ "region_name" := "id-jkt-1" ]} |} = Return c /\
    bucket (config c) = "photos" /\ default_expiry (config c) = 60.
Proof.
  pose (cfg := {| access_key := "AK"; secret_key := "SK"; bucket := "photos";
                  endpoint := DEFAULT_ENDPOINT; default_expiry := 60;
                  extra_boto_config := {[ "region_name" := "id-jkt-1" ]} |}).
  destruct (client_built_with_fixed_options Mock.boto3 cfg) as (kwargs & _ & _ & _ & _ & _ & _ & Hinit).
  - intros k Hk. apply lookup_singleton_None. intros <-.
    apply list_elem_of_In in Hk. simpl in Hk. intuition discriminate.
  - exists {| config := cfg; _s3 := Store.memory [] |}. split; [exact Hinit|done].
Defined.

(** ** Runs of operations *)

(** X14: over any run of operations, the caller going on after exceptions,
    the client object stays what it was, and the calls made on the
    collaborator are, in order, the one call of each operation: each is
    determined by the operation and the configuration alone, not by what came
    before, and each names the bucket of the configuration. *)
Theorem run_of_operations (isfile : string -> bool) ops st :
  self (run_all isfile ops st) = self st /\
  calls (run_all isfile ops st) =
    calls st ++ flat_map (fun op => option_list (request isfile (config (self st)) op)) ops /\
  Forall (fun c => call_bucket c = bucket (config (self st)))
    (flat_map (fun op => option_list (request isfile (config (self st)) op)) ops).
Proof.
  split; [|split].
  - revert st; induction ops as [|op rest IH]; intros st; simpl; [done|].
    by rewrite IH, exec_self.
  - revert st; induction ops as [|op rest IH]; intros st; simpl; [by rewrite app_nil_r|].
    by rewrite IH, exec_self, exec_calls, <- app_assoc.
  - induction ops as [|op rest IH]; simpl; [constructor|].
    apply Forall_app. split; [|done].
    destruct (request isfile (config (self st)) op) as [c|] eqn:Hreq; simpl; [|constructor].
    constructor; [|constructor]. by eapply request_bucket.
Qed.

(** X15: on a POSIX system, where [os.path.basename] is [posixpath.basename]:
    when [upload] is given no key (or the empty one) for a regular file, the
    key it sends and returns is the last component of the path: it holds no
    ["/"], and the path is that key, or ends with ["/"] followed by it. *)
Theorem default_key_is_last_component (isfile : string -> bool) local_path object_key
    extra_args st :
  isfile local_path = true ->
  object_key = None \/ object_key = Some "" ->
  exists k,
    calls (snd (upload isfile local_path object_key extra_args st)) =
      calls st ++ [UploadFile local_path (bucket (config (self st))) k (default ∅ extra_args)] /\
    (forall k', fst (upload isfile local_path object_key extra_args st) = Return k' -> k' = k) /\
    Py.free_of Py.sep k /\
    (local_path = k \/ exists d, local_path = d +:+ String Py.sep k).
Proof.
  intros Hfile Hkey. exists (Py.basename local_path).
  assert (Hor : Py.or_str object_key (Py.basename local_path) = Py.basename local_path)
    by by destruct Hkey as [-> | ->].
  assert (Hx : Py.or_dict extra_args = default ∅ extra_args) by by destruct extra_args.
  split; [by rewrite upload_calls, Hor, Hx|].
  split; [intros k' Hret; apply upload_returned in Hret; by rewrite Hor in Hret|].
  apply basename_spec.
Qed.

Lemma default_key_is_last_component_witness :
  let isfile := fun p : string => bool_decide (p = "/srv/photos/2024/cat.jpg") in
  exists k,
    calls (snd (upload isfile "/srv/photos/2024/cat.jpg" None None (start Store.photos))) =
      [UploadFile "/srv/photos/2024/cat.jpg" "photos" k ∅] /\
    k = "cat.jpg".
Proof.
  intros isfile.
  destruct (default_key_is_last_component isfile "/srv/photos/2024/cat.jpg" None None
              (start Store.photos)) as (k & Hcalls & _ & _ & _); [reflexivity|by left|].
  exists k. split; [exact Hcalls|].
  by injection Hcalls as <-.
Defined.
